(** * The reranking endpoint of [scripts/cross_encoder_server.py]

    A shallow embedding of the Flask handler [rerank] and of the Python
    and library operations it calls, followed by the properties of the
    request-to-response function.

    Python values are the ones a JSON body can produce.  Exceptions are
    explicit; the scorer behind [model.predict] is a parameter of the
    handler, and every invocation of it is recorded in a call log. *)

From Stdlib Require Import List ZArith Bool String Ascii Lia Permutation Sorted.
From Stdlib Require Import Floats.SpecFloat.
Import ListNotations.

Set Warnings "-register-all".

Local Open Scope string_scope.
Local Open Scope list_scope.

(** ** Python values *)

(** The values [json.loads] builds.  A [str] is a sequence of characters,
    one [ascii] per character.  A [dict] is the list of its items; the
    keys of a Python [dict] are distinct, and [dict_get] reads the first
    item stored under a key. *)
Inductive pyval : Type :=
| PyNone
| PyBool (b : bool)
| PyInt (z : Z)
| PyFloat (f : spec_float)
| PyStr (s : string)
| PyList (l : list pyval)
| PyDict (d : list (string * pyval)).

Definition dict := list (string * pyval).

Fixpoint dict_get (d : dict) (k : string) : option pyval :=
  match d with
  | [] => None
  | (k', v) :: d' => if String.eqb k' k then Some v else dict_get d' k
  end.

(** [type(v).__name__] *)
Definition type_name (v : pyval) : string :=
  match v with
  | PyNone => "NoneType"
  | PyBool _ => "bool"
  | PyInt _ => "int"
  | PyFloat _ => "float"
  | PyStr _ => "str"
  | PyList _ => "list"
  | PyDict _ => "dict"
  end.

(** [bool(v)]: the test behind [if not v]. *)
Definition truthy (v : pyval) : bool :=
  match v with
  | PyNone => false
  | PyBool b => b
  | PyInt z => negb (Z.eqb z 0)
  | PyFloat (S754_zero _) => false
  | PyFloat _ => true
  | PyStr s => negb (String.eqb s "")
  | PyList l => match l with [] => false | _ :: _ => true end
  | PyDict d => match d with [] => false | _ :: _ => true end
  end.

(** ** Exceptions *)

Inductive pyexn : Type :=
| BadRequest                            (* werkzeug.exceptions.BadRequest *)
| AttributeError (ty attr : string)
| TypeError_no_len (ty : string)
| TypeError_not_subscriptable (ty : string)
| TypeError_unhashable_slice
| TypeError_slice_indices
| TypeError_not_iterable (ty : string)
| ValueError_max_empty
| ScorerError (msg : string).           (* anything raised inside predict *)

(** [str(e)], the text the handler puts in the error envelope.  The
    wording is CPython's (3.11 for the [dict] subscript and for [max]). *)
Definition str_exn (e : pyexn) : string :=
  match e with
  | BadRequest =>
      "400 Bad Request: The browser (or proxy) sent a request that this server could not understand."
  | AttributeError ty attr =>
      "'" ++ ty ++ "' object has no attribute '" ++ attr ++ "'"
  | TypeError_no_len ty => "object of type '" ++ ty ++ "' has no len()"
  | TypeError_not_subscriptable ty => "'" ++ ty ++ "' object is not subscriptable"
  | TypeError_unhashable_slice => "unhashable type: 'slice'"
  | TypeError_slice_indices =>
      "slice indices must be integers or None or have an __index__ method"
  | TypeError_not_iterable ty => "'" ++ ty ++ "' object is not iterable"
  | ValueError_max_empty => "max() arg is an empty sequence"
  | ScorerError msg => msg
  end.

Inductive outcome (A : Type) : Type :=
| Ok (a : A)
| Raise (e : pyexn).
Arguments Ok {A} a.
Arguments Raise {A} e.

(** ** The handler's effects

    A computation reads and extends the log of scorer invocations and
    either returns or raises; what was logged before a raise stays. *)

Definition pair_list := list (pyval * pyval).
Definition call_log := list pair_list.

Definition M (A : Type) : Type := call_log -> outcome A * call_log.

Definition ret {A} (a : A) : M A := fun s => (Ok a, s).
Definition throw {A} (e : pyexn) : M A := fun s => (Raise e, s).
Definition bind {A B} (c : M A) (k : A -> M B) : M B :=
  fun s => match c s with
           | (Ok a, s') => k a s'
           | (Raise e, s') => (Raise e, s')
           end.
Definition lift {A} (o : outcome A) : M A := fun s => (o, s).

Notation "x <- c ;; k" := (bind c (fun x => k))
  (at level 61, c at next level, right associativity).
Notation "c ;; k" := (bind c (fun _ => k))
  (at level 61, right associativity).

(** ** Built-in operations used by the handler *)

(** [v.get(key, default)] *)
Definition py_get (v : pyval) (key : string) (default : pyval) : outcome pyval :=
  match v with
  | PyDict d => Ok (match dict_get d key with Some x => x | None => default end)
  | _ => Raise (AttributeError (type_name v) "get")
  end.

(** [len(v)] *)
Definition py_len (v : pyval) : outcome nat :=
  match v with
  | PyStr s => Ok (String.length s)
  | PyList l => Ok (List.length l)
  | PyDict d => Ok (List.length d)
  | _ => Raise (TypeError_no_len (type_name v))
  end.

Fixpoint chars (s : string) : list pyval :=
  match s with
  | EmptyString => []
  | String c s' => PyStr (String c EmptyString) :: chars s'
  end.

(** The elements [for doc in v] visits. *)
Definition py_iter (v : pyval) : outcome (list pyval) :=
  match v with
  | PyStr s => Ok (chars s)
  | PyList l => Ok l
  | PyDict d => Ok (map (fun kv => PyStr (fst kv)) d)
  | _ => Raise (TypeError_not_iterable (type_name v))
  end.

(** The stop index of [l[:stop]] for an integer [stop] on a sequence of
    length [n]: a negative stop counts from the end. *)
Definition slice_stop (n : nat) (stop : Z) : nat :=
  if (stop <? 0)%Z then Z.to_nat (Z.of_nat n + stop) else Z.to_nat stop.

(** [l[:stop]] on a list. [None] takes everything, a [bool] is an [int]. *)
Definition py_slice_to {A} (l : list A) (stop : pyval) : outcome (list A) :=
  match stop with
  | PyNone => Ok l
  | PyInt z => Ok (firstn (slice_stop (List.length l) z) l)
  | PyBool b => Ok (firstn (slice_stop (List.length l) (if b then 1 else 0)%Z) l)
  | _ => Raise TypeError_slice_indices
  end.

(** [v[:50]], evaluated for the first log line; only its failure matters. *)
Definition py_prefix50 (v : pyval) : outcome pyval :=
  match v with
  | PyStr s => Ok (PyStr (String.substring 0 50 s))
  | PyList l => Ok (PyList (firstn 50 l))
  | PyDict _ => Raise TypeError_unhashable_slice
  | _ => Raise (TypeError_not_subscriptable (type_name v))
  end.

(** [list(enumerate(l))] *)
Definition enumerate {A} (l : list A) : list (nat * A) :=
  combine (seq 0 (List.length l)) l.

(** ** [list.sort]

    The sort compares with [<] only and is stable; with [reverse=True] it
    reverses the list, sorts it, and reverses the result, which keeps
    equal keys in their original order.  It is rendered as insertion of
    each element, left to right, into the sorted run built so far: a new
    element goes in front of the first element of the run it is less
    than.  On keys that [<] orders as a strict weak order every stable
    sort returns this list, CPython's run detection and merging included;
    so does CPython on any two keys, where it makes the same single
    comparison.  With a NaN among three or more keys the list CPython
    returns depends on the runs it finds and can differ from this one,
    though it is a rearrangement of the input all the same. *)
Section ListSort.
Context {A : Type} (lt : A -> A -> bool).

Fixpoint insort (x : A) (run : list A) : list A :=
  match run with
  | [] => [x]
  | y :: run' => if lt x y then x :: run else y :: insort x run'
  end.

Definition stable_sort (l : list A) : list A :=
  fold_left (fun run x => insort x run) l [].

Definition list_sort (reverse : bool) (l : list A) : list A :=
  if reverse then rev (stable_sort (rev l)) else stable_sort l.
End ListSort.

(** ** Requests, responses and the scorer *)

(** What [request.get_json()] finds in the body of the POST. *)
Inductive payload : Type :=
| Unparseable            (* a JSON request whose body is empty or malformed *)
| Parsed (v : pyval).

(** Flask's [Request.get_json()] with its default [silent=False]: a body
    that cannot be decoded raises [BadRequest]. *)
Definition get_json (p : payload) : outcome pyval :=
  match p with
  | Unparseable => Raise BadRequest
  | Parsed v => Ok v
  end.

(** [model.predict(pairs).tolist()]: the scores, or the exception. *)
Definition predictor := pair_list -> outcome (list spec_float).

(** The body handed to [jsonify]. *)
Inductive body : Type :=
| ErrorBody (error : string)
| RankBody (scores : list spec_float) (indices : list nat).

Definition response := (body * Z)%type.

(** [model.predict]; the global [model] is [None] until [main] loads it. *)
Definition model_predict (model : option predictor) (pairs : pair_list)
  : M (list spec_float) :=
  match model with
  | None => throw (AttributeError "NoneType" "predict")
  | Some predict => fun s => (predict pairs, s ++ [pairs])
  end.

(** The second log line formats [max(scores)] and [sum(scores)/len(scores)]. *)
Definition log_stats (scores : list spec_float) : outcome unit :=
  match scores with
  | [] => Raise ValueError_max_empty
  | _ :: _ => Ok tt
  end.

(** [key=lambda x: x[1]] compared with [<] on floats. *)
Definition score_lt (a b : nat * spec_float) : bool := SFltb (snd a) (snd b).

(** The [try] block of [rerank]. *)
Definition rerank_try (model : option predictor) (p : payload) : M response :=
  data <- lift (get_json p) ;;
  if negb (truthy data) then ret (ErrorBody "No JSON data provided", 400%Z) else
  query <- lift (py_get data "query" PyNone) ;;
  documents <- lift (py_get data "documents" (PyList [])) ;;
  n <- lift (py_len documents) ;;
  top_n <- lift (py_get data "top_n" (PyInt (Z.of_nat n))) ;;
  if negb (truthy query) then ret (ErrorBody "Missing 'query' field", 400%Z) else
  if negb (truthy documents) then
    ret (ErrorBody "Missing or empty 'documents' field", 400%Z) else
  lift (py_len documents) ;;
  lift (py_prefix50 query) ;;
  docs <- lift (py_iter documents) ;;
  let pairs := map (fun doc => (query, doc)) docs in
  scores <- model_predict model pairs ;;
  let indexed_scores := list_sort score_lt true (enumerate scores) in
  top_idx <- lift (py_slice_to indexed_scores top_n) ;;
  let top_indices := map fst top_idx in
  top_sc <- lift (py_slice_to indexed_scores top_n) ;;
  let top_scores := map snd top_sc in
  lift (log_stats scores) ;;
  ret (RankBody top_scores top_indices, 200%Z).

(** [rerank]: the [try] block under [except Exception], started with the
    calls logged so far. *)
Definition rerank (model : option predictor) (p : payload) (s : call_log)
  : response * call_log :=
  match rerank_try model p s with
  | (Ok r, s') => (r, s')
  | (Raise e, s') => ((ErrorBody (str_exn e), 500%Z), s')
  end.

(** ** The order of Python floats

    [<], [<=] and [==] on floats are [SFltb], [SFleb] and [SFeqb]; each
    one is [False] as soon as an operand is NaN. *)

Definition is_nan (f : spec_float) : bool :=
  match f with S754_nan => true | _ => false end.

(** The order of the run that [stable_sort] builds from the reversed
    enumeration: ascending scores, and among equal scores the larger
    original index first. *)
Definition run_order (p q : nat * spec_float) : Prop :=
  SFleb (snd p) (snd q) = true /\
  (SFeqb (snd p) (snd q) = true -> fst q < fst p).

(** The order of the ranking: [p] may stand in front of [q] when
    [p]'s score [>=] [q]'s and, if the scores are [==], [p] has the
    smaller original index. *)
Definition ranked_before (p q : nat * spec_float) : Prop :=
  SFleb (snd q) (snd p) = true /\
  (SFeqb (snd p) (snd q) = true -> fst p < fst q).

Definition no_nan (scores : list spec_float) : Prop :=
  Forall (fun f => is_nan f = false) scores.

(** ** Well-formed requests *)

(** The scorer's input for a query and its documents. *)
Definition pairs_of (q : string) (docs : list string) : pair_list :=
  map (fun doc => (PyStr q, doc)) (map PyStr docs).

(** A body [d] with a non-empty string [q] under "query", the non-empty
    list of strings [docs] under "documents", and [top_n] under "top_n"
    ([None] when the key is absent). *)
Record rerank_request (d : dict) (q : string) (docs : list string)
       (top_n : option pyval) : Prop := {
  rr_query : dict_get d "query" = Some (PyStr q);
  rr_query_nonempty : q <> "";
  rr_documents : dict_get d "documents" = Some (PyList (map PyStr docs));
  rr_documents_nonempty : docs <> [];
  rr_top_n : dict_get d "top_n" = top_n
}.

(** A valid request: [top_n] is an integer or is omitted. *)
Definition valid_request (d : dict) (q : string) (docs : list string)
           (top_n : option Z) : Prop :=
  rerank_request d q docs (option_map PyInt top_n).

(** The value bound to [top_n] by [data.get('top_n', len(documents))]. *)
Definition top_n_value (docs : list string) (top_n : option pyval) : pyval :=
  match top_n with
  | Some v => v
  | None => PyInt (Z.of_nat (List.length docs))
  end.

(** The limit in force for a valid request. *)
Definition limit (docs : list string) (top_n : option Z) : Z :=
  match top_n with
  | Some k => k
  | None => Z.of_nat (List.length docs)
  end.

(** [indexed_scores[:k]] after the sort. *)
Definition top_ranked (scores : list spec_float) (k : Z) : list (nat * spec_float) :=
  firstn (slice_stop (List.length scores) k)
         (list_sort score_lt true (enumerate scores)).

(** ** Sample data *)

(** The binary64 values of the literals 0.9, 0.1, 0.8 and 1.0. *)
Definition f0_9 : spec_float := S754_finite false 8106479329266893 (-53).
Definition f0_1 : spec_float := S754_finite false 7205759403792794 (-56).
Definition f0_8 : spec_float := S754_finite false 7205759403792794 (-53).
Definition f1_0 : spec_float := S754_finite false 4503599627370496 (-52).

(** A scorer that answers every call with the same scores. *)
Definition stub_scorer (scores : list spec_float) : predictor :=
  fun _ => Ok scores.

Definition cat_documents : list string :=
  ["a cat sat"; "a dog ran"; "feline on a mat"].

(** The body [{"query": "cat", "documents": [...], ...rest}]. *)
Definition cat_request (rest : dict) : dict :=
  ("query", PyStr "cat") :: ("documents", PyList (map PyStr cat_documents)) :: rest.

(** The item list [{"top_n": k}], empty when [top_n] is omitted. *)
Definition top_n_item (top_n : option Z) : dict :=
  match top_n with
  | Some k => [("top_n", PyInt k)]
  | None => []
  end.

(** A two-document body without [top_n]. *)
Definition two_documents : list string := ["a cat sat"; "a dog ran"].

Definition two_request : dict :=
  [("query", PyStr "cat"); ("documents", PyList (map PyStr two_documents))].


(** Whether [len(v)] returns: a [str], a [list] or a [dict]. *)
Definition has_len (v : pyval) : bool :=
  match py_len v with
  | Ok _ => true
  | Raise _ => false
  end.

(** The JSON scalars that are numbers to Python ([bool] is one). *)
Definition is_number (v : pyval) : bool :=
  match v with
  | PyBool _ | PyInt _ | PyFloat _ => true
  | _ => false
  end.

(** [data.get(key)]: the value stored under [key], or [None]. *)
Definition field (d : dict) (key : string) : pyval :=
  match dict_get d key with
  | Some v => v
  | None => PyNone
  end.

(** Closes a case of the handler that ends in the catch-all [except]
    before the scorer is reached. *)
Ltac answer_500 := left; split; [reflexivity | left; eexists; reflexivity].

Ltac float_cases :=
  repeat match goal with
         | s : bool |- _ => destruct s
         | |- context [Z.compare ?a ?b] => destruct (Z.compare_spec a b)
         | |- context [Pos.compare ?a ?b] => destruct (Pos.compare_spec a b)
         end;
  simpl; intros; try congruence; try lia.

Lemma SFltb_total a b :
  is_nan a = false -> is_nan b = false -> SFltb a b = false -> SFleb b a = true.
Proof.
  unfold SFltb, SFleb, SFcompare.
  change (Pos.compare_cont Eq) with Pos.compare.
  destruct a, b; simpl; float_cases.
Qed.

Lemma SFltb_leb a b : SFltb a b = true -> SFleb a b = true.
Proof. unfold SFltb, SFleb. destruct (SFcompare a b) as [[]|]; congruence. Qed.

Lemma SFltb_neq a b : SFltb a b = true -> SFeqb a b = false.
Proof. unfold SFltb, SFeqb. destruct (SFcompare a b) as [[]|]; congruence. Qed.

Lemma SFltb_leb_trans a b c :
  SFltb a b = true -> SFleb b c = true -> SFltb a c = true.
Proof.
  unfold SFltb, SFleb, SFcompare.
  change (Pos.compare_cont Eq) with Pos.compare.
  destruct a, b, c; simpl; float_cases.
Qed.

Lemma SFeqb_sym a b : SFeqb a b = SFeqb b a.
Proof.
  unfold SFeqb, SFcompare.
  change (Pos.compare_cont Eq) with Pos.compare.
  destruct a, b; simpl; float_cases.
Qed.

(** ** Facts about lists *)

Section ListFacts.
Context {A : Type}.

Lemma StronglySorted_snoc (R : A -> A -> Prop) l x :
  StronglySorted R l -> Forall (fun y => R y x) l -> StronglySorted R (l ++ [x]).
Proof.
  induction 1 as [|y l Hl IH Hy]; intros Hx; simpl.
  - repeat constructor.
  - inversion Hx; subst. constructor; [now apply IH|].
    apply Forall_app. split; [assumption | now constructor].
Qed.

Lemma StronglySorted_rev (R : A -> A -> Prop) l :
  StronglySorted R l -> StronglySorted (fun a b => R b a) (rev l).
Proof.
  induction 1 as [|y l Hl IH Hy]; simpl; [constructor|].
  apply StronglySorted_snoc; [assumption|].
  apply Forall_rev. assumption.
Qed.

Lemma StronglySorted_weaken (R R' : A -> A -> Prop) l :
  (forall a b, R a b -> R' a b) -> StronglySorted R l -> StronglySorted R' l.
Proof.
  intros HR. induction 1 as [|y l Hl IH Hy]; constructor; [assumption|].
  eapply Forall_impl; [|exact Hy]. intros b. apply HR.
Qed.

Lemma StronglySorted_firstn (R : A -> A -> Prop) n l :
  StronglySorted R l -> StronglySorted R (firstn n l).
Proof.
  intros H. revert n. induction H as [|y l Hl IH Hy]; intros [|n]; simpl;
    try constructor; [apply IH|].
  rewrite Forall_forall in *. intros z Hz. apply Hy.
  rewrite <- (firstn_skipn n l). apply in_or_app. now left.
Qed.

Lemma StronglySorted_nth (R : A -> A -> Prop) l :
  StronglySorted R l ->
  forall i j a b, i < j -> nth_error l i = Some a -> nth_error l j = Some b -> R a b.
Proof.
  induction 1 as [|y l Hl IH Hy]; intros i j a b Hij Ha Hb.
  - destruct i; discriminate.
  - destruct j as [|j]; [lia|]. simpl in Hb. destruct i as [|i]; simpl in Ha.
    + injection Ha as <-. rewrite Forall_forall in Hy. apply Hy.
      eapply nth_error_In; eassumption.
    + apply (IH i j); [lia | assumption | assumption].
Qed.

Lemma NoDup_firstn n (l : list A) : NoDup l -> NoDup (firstn n l).
Proof.
  intros H. rewrite <- (firstn_skipn n l) in H.
  eapply NoDup_app_remove_r. eassumption.
Qed.

Lemma In_firstn n (l : list A) x : In x (firstn n l) -> In x l.
Proof.
  intros H. rewrite <- (firstn_skipn n l). apply in_or_app. now left.
Qed.
End ListFacts.

(** ** The sort returns a rearrangement of its input *)

Section SortPermutation.
Context {A : Type} (lt : A -> A -> bool).

Lemma insort_perm x run : Permutation (insort lt x run) (x :: run).
Proof.
  induction run as [|y run IH]; simpl; [reflexivity|].
  destruct (lt x y); [reflexivity|].
  rewrite IH. apply perm_swap.
Qed.

Lemma fold_insort_perm l run :
  Permutation (fold_left (fun r x => insort lt x r) l run) (run ++ l).
Proof.
  revert run. induction l as [|x l IH]; intros run; simpl.
  - now rewrite app_nil_r.
  - rewrite IH, insort_perm. apply Permutation_middle.
Qed.

Lemma stable_sort_perm l : Permutation (stable_sort lt l) l.
Proof. unfold stable_sort. now rewrite fold_insort_perm. Qed.

Lemma list_sort_perm reverse l : Permutation (list_sort lt reverse l) l.
Proof.
  unfold list_sort. destruct reverse; [|apply stable_sort_perm].
  now rewrite <- Permutation_rev, stable_sort_perm, <- Permutation_rev.
Qed.

Lemma list_sort_length reverse l :
  List.length (list_sort lt reverse l) = List.length l.
Proof. apply Permutation_length, list_sort_perm. Qed.
End SortPermutation.

(** ** The sort ranks NaN-free scores *)

Lemma insort_In {A} (lt : A -> A -> bool) x run y :
  In y (insort lt x run) -> y = x \/ In y run.
Proof.
  intros H. apply (Permutation_in _ (insort_perm lt x run)) in H.
  destruct H; [left; congruence | now right].
Qed.

Lemma insort_run_order x run :
  is_nan (snd x) = false ->
  Forall (fun y => is_nan (snd y) = false) run ->
  Forall (fun y => fst x < fst y) run ->
  StronglySorted run_order run ->
  StronglySorted run_order (insort score_lt x run).
Proof.
  intros Hx Hnan Hidx Hs. induction Hs as [|y run Hs IH Hy]; simpl.
  - repeat constructor.
  - inversion Hnan as [|? ? Hny Hnan']; subst.
    inversion Hidx as [|? ? Hxy Hidx']; subst.
    unfold score_lt at 1. destruct (SFltb (snd x) (snd y)) eqn:Hlt.
    + constructor; [now constructor|].
      constructor.
      * split; [now apply SFltb_leb|]. intros He.
        rewrite (SFltb_neq _ _ Hlt) in He. discriminate.
      * rewrite Forall_forall in *. intros z Hz.
        destruct (Hy z Hz) as [Hle _].
        pose proof (SFltb_leb_trans _ _ _ Hlt Hle) as Hxz.
        split; [now apply SFltb_leb|]. intros He.
        rewrite (SFltb_neq _ _ Hxz) in He. discriminate.
    + constructor; [now apply IH|].
      rewrite Forall_forall in *. intros z Hz.
      apply insort_In in Hz. destruct Hz as [-> | Hz]; [|now apply Hy].
      split; [now apply SFltb_total|]. intros _. assumption.
Qed.

Lemma fold_insort_run_order l run :
  Forall (fun y => is_nan (snd y) = false) l ->
  Forall (fun y => is_nan (snd y) = false) run ->
  StronglySorted (fun p q => fst q < fst p) l ->
  Forall (fun a => Forall (fun x => fst x < fst a) l) run ->
  StronglySorted run_order run ->
  StronglySorted run_order (fold_left (fun r x => insort score_lt x r) l run).
Proof.
  revert run. induction l as [|x l IH]; intros run Hl Hrun Hdec Hidx Hs; simpl.
  - assumption.
  - inversion Hl as [|? ? Hx Hl']; subst.
    inversion Hdec as [|? ? Hdec' Hxl]; subst.
    apply IH; try assumption.
    + rewrite Forall_forall in *. intros z Hz.
      apply insort_In in Hz. destruct Hz as [-> | Hz]; auto.
    + rewrite Forall_forall. intros z Hz.
      apply insort_In in Hz. destruct Hz as [-> | Hz]; [assumption|].
      rewrite Forall_forall in Hidx. specialize (Hidx z Hz).
      now inversion Hidx.
    + apply insort_run_order; try assumption.
      rewrite Forall_forall in *. intros z Hz. specialize (Hidx z Hz).
      now inversion Hidx.
Qed.

Lemma combine_seq_increasing {A} (l : list A) a :
  StronglySorted (fun p q => fst p < fst q) (combine (seq a (List.length l)) l).
Proof.
  revert a. induction l as [|x l IH]; intros a; simpl; constructor.
  - apply IH.
  - rewrite Forall_forall. intros [i y] Hin. simpl.
    apply in_combine_l, in_seq in Hin. lia.
Qed.

Lemma enumerate_no_nan scores :
  no_nan scores -> Forall (fun y => is_nan (snd y) = false) (enumerate scores).
Proof.
  unfold no_nan, enumerate. rewrite !Forall_forall. intros H [i y] Hin.
  apply in_combine_r in Hin. now apply H.
Qed.

Lemma sort_ranked scores :
  no_nan scores ->
  StronglySorted ranked_before (list_sort score_lt true (enumerate scores)).
Proof.
  intros Hn. unfold list_sort, stable_sort.
  assert (Hr : StronglySorted run_order
                 (fold_left (fun r x => insort score_lt x r)
                            (rev (enumerate scores)) [])).
  { apply fold_insort_run_order.
    - apply Forall_rev, enumerate_no_nan, Hn.
    - constructor.
    - apply (StronglySorted_rev (fun p q : nat * spec_float => fst p < fst q)).
      apply combine_seq_increasing.
    - constructor.
    - constructor. }
  apply StronglySorted_rev in Hr.
  eapply StronglySorted_weaken; [|exact Hr].
  intros p q [Hle Htie]. split; [assumption|].
  rewrite SFeqb_sym. assumption.
Qed.

(** ** Running the handler on a well-formed request *)

Lemma bind_lift {A B} (o : outcome A) (k : A -> M B) s :
  bind (lift o) k s = match o with Ok a => k a s | Raise e => (Raise e, s) end.
Proof. unfold bind, lift. now destruct o. Qed.

Lemma truthy_str q : q <> "" -> truthy (PyStr q) = true.
Proof. intros H. simpl. destruct (String.eqb_spec q ""); [contradiction | reflexivity]. Qed.

Lemma truthy_docs docs : docs <> [] -> truthy (PyList (map PyStr docs)) = true.
Proof. destruct docs; [contradiction | reflexivity]. Qed.

Lemma rerank_try_request d q docs top_n predict s :
  rerank_request d q docs top_n ->
  rerank_try (Some predict) (Parsed (PyDict d)) s =
  match predict (pairs_of q docs) with
  | Raise e => (Raise e, s ++ [pairs_of q docs])
  | Ok scores =>
      let indexed_scores := list_sort score_lt true (enumerate scores) in
      match py_slice_to indexed_scores (top_n_value docs top_n) with
      | Raise e => (Raise e, s ++ [pairs_of q docs])
      | Ok top =>
          match scores with
          | [] => (Raise ValueError_max_empty, s ++ [pairs_of q docs])
          | _ :: _ => (Ok (RankBody (map snd top) (map fst top), 200%Z),
                       s ++ [pairs_of q docs])
          end
      end
  end.
Proof.
  intros [Hq Hqne Hd Hdne Ht].
  assert (Hdict : truthy (PyDict d) = true).
  { destruct d; [discriminate Hq | reflexivity]. }
  unfold rerank_try. rewrite bind_lift. cbn [get_json].
  rewrite Hdict. cbn [negb].
  rewrite bind_lift. cbn [py_get]. rewrite Hq.
  rewrite bind_lift. cbn [py_get]. rewrite Hd.
  rewrite bind_lift. cbn [py_len]. rewrite length_map.
  rewrite bind_lift. cbn [py_get]. rewrite Ht.
  rewrite (truthy_str q Hqne), (truthy_docs docs Hdne). cbn [negb].
  rewrite bind_lift. cbn [py_len].
  rewrite bind_lift. cbn [py_prefix50].
  rewrite bind_lift. cbn [py_iter].
  unfold bind at 1. unfold model_predict. fold (pairs_of q docs).
  destruct (predict (pairs_of q docs)) as [scores|e]; [|reflexivity].
  cbv zeta. rewrite bind_lift.
  change (match top_n with Some x => x | None => PyInt (Z.of_nat (List.length docs)) end)
    with (top_n_value docs top_n).
  destruct (py_slice_to _ _) as [top|e]; [|reflexivity].
  rewrite bind_lift, bind_lift.
  destruct scores; reflexivity.
Qed.

Lemma enumerate_length {A} (l : list A) : List.length (enumerate l) = List.length l.
Proof. unfold enumerate. rewrite length_combine, length_seq. apply Nat.min_id. Qed.

Lemma combine_seq_fst {A} (l : list A) a :
  map fst (combine (seq a (List.length l)) l) = seq a (List.length l).
Proof.
  revert a. induction l as [|x l IH]; intros a; simpl; [reflexivity|].
  now rewrite IH.
Qed.

Lemma combine_seq_nth {A} (l : list A) a i x :
  In (i, x) (combine (seq a (List.length l)) l) ->
  a <= i /\ nth_error l (i - a) = Some x.
Proof.
  revert a. induction l as [|y l IH]; intros a; simpl; [contradiction|].
  intros [H | H].
  - injection H as <- <-. rewrite Nat.sub_diag. split; [lia | reflexivity].
  - apply IH in H. destruct H as [Hle Hn]. split; [lia|].
    replace (i - a) with (S (i - S a)) by lia. exact Hn.
Qed.

Lemma enumerate_nth {A} (l : list A) i x :
  In (i, x) (enumerate l) -> nth_error l i = Some x.
Proof.
  intros H. apply combine_seq_nth in H. now rewrite Nat.sub_0_r in H.
Qed.

Lemma top_ranked_In scores k p :
  In p (top_ranked scores k) -> In p (enumerate scores).
Proof.
  intros H. apply In_firstn in H.
  eapply Permutation_in; [apply list_sort_perm | exact H].
Qed.

Lemma top_ranked_NoDup scores k : NoDup (map fst (top_ranked scores k)).
Proof.
  unfold top_ranked. rewrite <- firstn_map. apply NoDup_firstn.
  eapply Permutation_NoDup.
  - apply Permutation_map, Permutation_sym, list_sort_perm.
  - unfold enumerate. rewrite combine_seq_fst. apply seq_NoDup.
Qed.

Lemma top_ranked_length scores k :
  List.length (top_ranked scores k) = Nat.min (slice_stop (List.length scores) k) (List.length scores).
Proof.
  unfold top_ranked. now rewrite length_firstn, list_sort_length, enumerate_length.
Qed.

Lemma rerank_valid_response d q docs top_n predict scores s :
  valid_request d q docs top_n ->
  predict (pairs_of q docs) = Ok scores ->
  List.length scores = List.length docs ->
  rerank (Some predict) (Parsed (PyDict d)) s =
  ((RankBody (map snd (top_ranked scores (limit docs top_n)))
             (map fst (top_ranked scores (limit docs top_n))), 200%Z),
   s ++ [pairs_of q docs]).
Proof.
  intros Hv Hp Hlen. unfold rerank.
  rewrite (rerank_try_request _ _ _ _ _ _ Hv), Hp. cbv zeta.
  assert (Hs : py_slice_to (list_sort score_lt true (enumerate scores))
                 (top_n_value docs (option_map PyInt top_n))
               = Ok (top_ranked scores (limit docs top_n))).
  { unfold top_ranked.
    destruct top_n as [k|]; cbn [top_n_value option_map py_slice_to limit];
      now rewrite list_sort_length, enumerate_length. }
  rewrite Hs. destruct scores as [|f scores]; [|reflexivity].
  destruct Hv as [_ _ _ Hne _]. destruct docs; [contradiction | discriminate].
Qed.

(** ** Properties of the handler *)

(** C1 (as amended).  For a valid request and scores none of which is
    NaN, one per document, the handler answers 200 with parallel arrays in
    which every earlier score is [>=] every later one, and of two entries
    with [==] scores the one with the smaller original index comes first. *)
Theorem rerank_sorted_desc_stable d q docs top_n predict scores s :
  valid_request d q docs top_n ->
  predict (pairs_of q docs) = Ok scores ->
  List.length scores = List.length docs ->
  no_nan scores ->
  exists ss idx,
    fst (rerank (Some predict) (Parsed (PyDict d)) s) = (RankBody ss idx, 200%Z) /\
    List.length ss = List.length idx /\
    forall i j si sj xi xj,
      i < j ->
      nth_error ss i = Some si -> nth_error ss j = Some sj ->
      nth_error idx i = Some xi -> nth_error idx j = Some xj ->
      SFleb sj si = true /\ (SFeqb si sj = true -> xi < xj).
Proof.
  intros Hv Hp Hlen Hn.
  rewrite (rerank_valid_response _ _ _ _ _ _ s Hv Hp Hlen). cbn [fst].
  eexists _, _. split; [reflexivity|]. split; [now rewrite !length_map|].
  intros i j si sj xi xj Hij Hsi Hsj Hxi Hxj.
  rewrite nth_error_map in Hsi, Hsj, Hxi, Hxj.
  destruct (nth_error (top_ranked scores _) i) as [[a sa]|] eqn:Ei; [|discriminate].
  destruct (nth_error (top_ranked scores _) j) as [[b sb]|] eqn:Ej; [|discriminate].
  cbn in Hsi, Hsj, Hxi, Hxj.
  injection Hsi as <-. injection Hsj as <-. injection Hxi as <-. injection Hxj as <-.
  pose proof (StronglySorted_firstn ranked_before
                (slice_stop (List.length scores) (limit docs top_n)) _
                (sort_ranked scores Hn)) as Hsorted.
  exact (StronglySorted_nth _ _ Hsorted i j (a, sa) (b, sb) Hij Ei Ej).
Qed.

Lemma cat_request_valid top_n :
  valid_request (cat_request (top_n_item top_n)) "cat" cat_documents top_n.
Proof.
  constructor; try reflexivity; try discriminate.
  destruct top_n; reflexivity.
Qed.

Lemma rerank_sorted_desc_stable_witness :
  exists ss idx,
    fst (rerank (Some (stub_scorer [f0_9; f0_1; f0_8]))
                (Parsed (PyDict (cat_request (top_n_item (Some 2%Z))))) [])
    = (RankBody ss idx, 200%Z) /\
    List.length ss = List.length idx /\
    forall i j si sj xi xj,
      i < j ->
      nth_error ss i = Some si -> nth_error ss j = Some sj ->
      nth_error idx i = Some xi -> nth_error idx j = Some xj ->
      SFleb sj si = true /\ (SFeqb si sj = true -> xi < xj).
Proof.
  apply (rerank_sorted_desc_stable
           (cat_request (top_n_item (Some 2%Z))) "cat" cat_documents (Some 2%Z)
           (stub_scorer [f0_9; f0_1; f0_8]) [f0_9; f0_1; f0_8] []).
  - constructor; try reflexivity; discriminate.
  - reflexivity.
  - reflexivity.
  - repeat constructor.
Defined.

(** C1 (as stated) fails when the scorer returns a NaN: for the scores
    [NaN, 1.0] the handler answers 200 with scores [NaN, 1.0], and
    [scores[0] >= scores[1]] is false. *)
Lemma rerank_nan_not_descending :
  valid_request two_request "cat" two_documents None /\
  fst (rerank (Some (stub_scorer [S754_nan; f1_0])) (Parsed (PyDict two_request)) [])
  = (RankBody [S754_nan; f1_0] [0; 1], 200%Z) /\
  SFleb f1_0 S754_nan = false.
Proof.
  split; [|split]; try reflexivity.
  constructor; try reflexivity; discriminate.
Qed.

(** C2 (as amended).  For a valid request the two arrays have the same
    length: [len(documents)] when [top_n] is omitted,
    [min(top_n, len(documents))] when [top_n >= 0], and
    [max(0, len(documents) + top_n)] when [top_n] is negative (the slice
    then drops entries from the end; no clamping to 0 takes place). *)
Theorem rerank_response_length d q docs top_n predict scores s :
  valid_request d q docs top_n ->
  predict (pairs_of q docs) = Ok scores ->
  List.length scores = List.length docs ->
  exists ss idx,
    fst (rerank (Some predict) (Parsed (PyDict d)) s) = (RankBody ss idx, 200%Z) /\
    List.length idx = List.length ss /\
    (top_n = None -> List.length ss = List.length docs) /\
    (forall k, top_n = Some k -> (0 <= k)%Z ->
       Z.of_nat (List.length ss) = Z.min k (Z.of_nat (List.length docs))) /\
    (forall k, top_n = Some k -> (k < 0)%Z ->
       Z.of_nat (List.length ss) = Z.max 0 (Z.of_nat (List.length docs) + k)).
Proof.
  intros Hv Hp Hlen.
  rewrite (rerank_valid_response _ _ _ _ _ _ s Hv Hp Hlen). cbn [fst].
  eexists _, _. split; [reflexivity|]. rewrite !length_map.
  split; [reflexivity|]. rewrite top_ranked_length, Hlen. unfold slice_stop.
  split; [|split].
  - intros ->. cbn [limit].
    destruct (Z.ltb_spec (Z.of_nat (List.length docs)) 0); lia.
  - intros k -> Hk. cbn [limit]. destruct (Z.ltb_spec k 0); lia.
  - intros k -> Hk. cbn [limit]. destruct (Z.ltb_spec k 0); lia.
Qed.

Lemma rerank_response_length_witness :
  exists ss idx,
    fst (rerank (Some (stub_scorer [f0_9; f0_1; f0_8]))
                (Parsed (PyDict (cat_request (top_n_item (Some 5%Z))))) [])
    = (RankBody ss idx, 200%Z) /\
    List.length idx = List.length ss /\
    (Some 5%Z = None -> List.length ss = List.length cat_documents) /\
    (forall k, Some 5%Z = Some k -> (0 <= k)%Z ->
       Z.of_nat (List.length ss) = Z.min k (Z.of_nat (List.length cat_documents))) /\
    (forall k, Some 5%Z = Some k -> (k < 0)%Z ->
       Z.of_nat (List.length ss) = Z.max 0 (Z.of_nat (List.length cat_documents) + k)).
Proof.
  apply (rerank_response_length
           (cat_request (top_n_item (Some 5%Z))) "cat" cat_documents (Some 5%Z)
           (stub_scorer [f0_9; f0_1; f0_8]) [f0_9; f0_1; f0_8] []).
  - constructor; try reflexivity; discriminate.
  - reflexivity.
  - reflexivity.
Defined.

(** C2 (as stated) fails for a negative [top_n]: with three documents and
    [top_n = -1] the response has two entries; clamping [top_n] to
    [[0, 3]] would give none. *)
Lemma rerank_negative_top_n_not_clamped :
  valid_request (cat_request (top_n_item (Some (-1)%Z))) "cat" cat_documents
                (Some (-1)%Z) /\
  fst (rerank (Some (stub_scorer [f0_9; f0_1; f0_8]))
              (Parsed (PyDict (cat_request (top_n_item (Some (-1)%Z))))) [])
  = (RankBody [f0_9; f0_8] [0; 2], 200%Z) /\
  Z.of_nat (List.length [0; 2])
  <> Z.max 0 (Z.min (-1) (Z.of_nat (List.length cat_documents))).
Proof.
  split; [apply cat_request_valid|]. split; [reflexivity|]. discriminate.
Qed.

(** C3.  For a valid request every reported index is a position of the
    input [documents], no index occurs twice, and [scores[i]] is the score
    the scorer gave to the pair built from [documents[indices[i]]]. *)
Theorem rerank_indices_original d q docs top_n predict scores s :
  valid_request d q docs top_n ->
  predict (pairs_of q docs) = Ok scores ->
  List.length scores = List.length docs ->
  exists ss idx,
    fst (rerank (Some predict) (Parsed (PyDict d)) s) = (RankBody ss idx, 200%Z) /\
    (forall x, In x idx -> x < List.length docs) /\
    NoDup idx /\
    (forall i x, nth_error idx i = Some x ->
       exists doc sc,
         nth_error docs x = Some doc /\
         nth_error (pairs_of q docs) x = Some (PyStr q, PyStr doc) /\
         nth_error scores x = Some sc /\
         nth_error ss i = Some sc).
Proof.
  intros Hv Hp Hlen.
  rewrite (rerank_valid_response _ _ _ _ _ _ s Hv Hp Hlen). cbn [fst].
  eexists _, _. split; [reflexivity|].
  assert (Hin : forall x sc, In (x, sc) (top_ranked scores (limit docs top_n)) ->
                             nth_error scores x = Some sc).
  { intros x sc H. apply enumerate_nth. eapply top_ranked_In. exact H. }
  split; [|split].
  - intros x Hx. apply in_map_iff in Hx. destruct Hx as [[x' sc] [<- Hx]].
    apply Hin in Hx. rewrite <- Hlen. apply nth_error_Some. cbn. congruence.
  - apply top_ranked_NoDup.
  - intros i x Hx. rewrite nth_error_map in Hx.
    destruct (nth_error (top_ranked scores _) i) as [[x' sc]|] eqn:Ei; [|discriminate].
    cbn in Hx. injection Hx as ->.
    pose proof (Hin x sc (nth_error_In _ _ Ei)) as Hsc.
    assert (Hlt : x < List.length docs).
    { rewrite <- Hlen. apply nth_error_Some. congruence. }
    destruct (nth_error docs x) as [doc|] eqn:Ed;
      [|apply nth_error_None in Ed; lia].
    exists doc, sc. split; [reflexivity|]. split; [|split].
    + unfold pairs_of. rewrite !nth_error_map, Ed. reflexivity.
    + exact Hsc.
    + rewrite nth_error_map, Ei. reflexivity.
Qed.

Lemma rerank_indices_original_witness :
  exists ss idx,
    fst (rerank (Some (stub_scorer [f0_9; f0_1; f0_8]))
                (Parsed (PyDict (cat_request (top_n_item None)))) [])
    = (RankBody ss idx, 200%Z) /\
    (forall x, In x idx -> x < List.length cat_documents) /\
    NoDup idx /\
    (forall i x, nth_error idx i = Some x ->
       exists doc sc,
         nth_error cat_documents x = Some doc /\
         nth_error (pairs_of "cat" cat_documents) x = Some (PyStr "cat", PyStr doc) /\
         nth_error [f0_9; f0_1; f0_8] x = Some sc /\
         nth_error ss i = Some sc).
Proof.
  apply (rerank_indices_original
           (cat_request (top_n_item None)) "cat" cat_documents None
           (stub_scorer [f0_9; f0_1; f0_8]) [f0_9; f0_1; f0_8] []).
  - constructor; try reflexivity; discriminate.
  - reflexivity.
  - reflexivity.
Defined.

(** C4 (the code departs from it).  A body that cannot be decoded makes
    [get_json] raise; the handler's [except Exception] turns that into a
    500 carrying the text of the [BadRequest], and the guard that answers
    400 "No JSON data provided" is never reached. *)
Theorem rerank_unparseable_body model s :
  rerank model Unparseable s
  = ((ErrorBody "400 Bad Request: The browser (or proxy) sent a request that this server could not understand.",
      500%Z), s).
Proof. reflexivity. Qed.

(** C6.  For a valid request, when the scoring call raises, the handler
    answers 500 with exactly the text of the exception as its error, and
    the body carries no scores and no indices. *)
Theorem rerank_scoring_failure d q docs top_n predict e s :
  valid_request d q docs top_n ->
  predict (pairs_of q docs) = Raise e ->
  fst (rerank (Some predict) (Parsed (PyDict d)) s) = (ErrorBody (str_exn e), 500%Z) /\
  forall ss idx status,
    fst (rerank (Some predict) (Parsed (PyDict d)) s) <> (RankBody ss idx, status).
Proof.
  intros Hv Hp. unfold rerank.
  rewrite (rerank_try_request _ _ _ _ _ _ Hv), Hp. cbn [fst].
  split; [reflexivity | discriminate].
Qed.

Lemma rerank_scoring_failure_witness :
  fst (rerank (Some (fun _ => Raise (ScorerError "CUDA out of memory")))
              (Parsed (PyDict (cat_request (top_n_item (Some 2%Z))))) [])
  = (ErrorBody "CUDA out of memory", 500%Z) /\
  forall ss idx status,
    fst (rerank (Some (fun _ => Raise (ScorerError "CUDA out of memory")))
                (Parsed (PyDict (cat_request (top_n_item (Some 2%Z))))) [])
    <> (RankBody ss idx, status).
Proof.
  apply (rerank_scoring_failure
           (cat_request (top_n_item (Some 2%Z))) "cat" cat_documents (Some 2%Z)
           (fun _ => Raise (ScorerError "CUDA out of memory"))
           (ScorerError "CUDA out of memory") []).
  - constructor; try reflexivity; discriminate.
  - reflexivity.
Defined.

(** C7.  query "cat", the three sample documents, [top_n = 2] and a
    scorer returning [0.9, 0.1, 0.8] give scores [0.9, 0.8] and indices
    [0, 2], after one call of the scorer. *)
Theorem rerank_cat_scenario :
  rerank (Some (stub_scorer [f0_9; f0_1; f0_8]))
         (Parsed (PyDict (cat_request [("top_n", PyInt 2)]))) []
  = ((RankBody [f0_9; f0_8] [0; 2], 200%Z), [pairs_of "cat" cat_documents]).
Proof. reflexivity. Qed.

Lemma bind_predict {B} model pairs (k : list spec_float -> M B) s :
  bind (model_predict model pairs) k s =
  match model with
  | None => (Raise (AttributeError "NoneType" "predict"), s)
  | Some predict =>
      match predict pairs with
      | Ok scores => k scores (s ++ [pairs])
      | Raise e => (Raise e, s ++ [pairs])
      end
  end.
Proof.
  unfold bind, model_predict, throw. destruct model as [predict|]; [|reflexivity].
  now destruct (predict pairs).
Qed.

(** C8.  The response is determined by the body and by what the scorer
    answers to the call the handler makes.  If a second scorer answers
    every pair list the first invocation sent as the first scorer did,
    then serving the same body with it, in whatever state the server
    then is, gives the same response.  In particular, two invocations
    with identical input and the same scorer give identical responses. *)
Theorem rerank_response_determined p predict1 predict2 s1 s2 :
  (forall pairs,
     snd (rerank (Some predict1) p s1) = s1 ++ [pairs] ->
     predict2 pairs = predict1 pairs) ->
  fst (rerank (Some predict2) p s2) = fst (rerank (Some predict1) p s1).
Proof.
  unfold rerank, rerank_try. rewrite ?bind_lift.
  destruct (get_json p) as [data|e]; [|reflexivity].
  destruct (negb (truthy data)); [reflexivity|].
  rewrite ?bind_lift.
  destruct (py_get data "query" PyNone) as [query|e]; [|reflexivity].
  rewrite ?bind_lift.
  destruct (py_get data "documents" (PyList [])) as [documents|e]; [|reflexivity].
  rewrite ?bind_lift.
  destruct (py_len documents) as [n|e]; [|reflexivity].
  rewrite ?bind_lift.
  destruct (py_get data "top_n" (PyInt (Z.of_nat n))) as [top_n|e]; [|reflexivity].
  destruct (negb (truthy query)); [reflexivity|].
  destruct (negb (truthy documents)); [reflexivity|].
  rewrite ?bind_lift.
  destruct (py_prefix50 query) as [?|e]; [|reflexivity].
  rewrite ?bind_lift.
  destruct (py_iter documents) as [docs|e]; [|reflexivity].
  rewrite ?bind_predict.
  set (pairs := map (fun doc => (query, doc)) docs).
  intros Hsame.
  assert (E : predict2 pairs = predict1 pairs).
  { apply Hsame.
    destruct (predict1 pairs) as [scores|e]; [|reflexivity].
    cbv zeta. rewrite ?bind_lift.
    destruct (py_slice_to _ top_n) as [top|e]; [|reflexivity].
    rewrite ?bind_lift. destruct (log_stats scores); reflexivity. }
  rewrite E.
  destruct (predict1 pairs) as [scores|e]; [|reflexivity].
  cbv zeta. rewrite ?bind_lift.
  destruct (py_slice_to _ top_n) as [top|e]; [|reflexivity].
  rewrite ?bind_lift. destruct (log_stats scores); reflexivity.
Qed.

Lemma rerank_response_determined_witness :
  fst (rerank (Some (fun pairs =>
                       if Nat.eqb (List.length pairs) 3
                       then Ok [f0_9; f0_1; f0_8]
                       else Raise (ScorerError "unexpected batch")))
              (Parsed (PyDict (cat_request (top_n_item (Some 2%Z)))))
              [pairs_of "cat" cat_documents])
  = fst (rerank (Some (stub_scorer [f0_9; f0_1; f0_8]))
                (Parsed (PyDict (cat_request (top_n_item (Some 2%Z))))) []).
Proof.
  apply (rerank_response_determined
           (Parsed (PyDict (cat_request (top_n_item (Some 2%Z)))))
           (stub_scorer [f0_9; f0_1; f0_8])
           (fun pairs =>
              if Nat.eqb (List.length pairs) 3
              then Ok [f0_9; f0_1; f0_8]
              else Raise (ScorerError "unexpected batch"))
           [] [pairs_of "cat" cat_documents]).
  intros pairs H. injection H as <-. reflexivity.
Defined.

Lemma truthy_dict d : d <> [] -> truthy (PyDict d) = true.
Proof. destruct d; [contradiction | reflexivity]. Qed.

(** C9 (as amended).  For a body that is a non-empty JSON object whose
    query is absent or empty and whose documents are absent or empty, the
    handler answers with the query error and does not call the scorer. *)
Theorem rerank_query_checked_first d model s :
  d <> [] ->
  dict_get d "query" = None \/ dict_get d "query" = Some (PyStr "") ->
  dict_get d "documents" = None \/ dict_get d "documents" = Some (PyList []) ->
  rerank model (Parsed (PyDict d)) s = ((ErrorBody "Missing 'query' field", 400%Z), s).
Proof.
  intros Hd Hq Hdoc. unfold rerank, rerank_try.
  rewrite bind_lift. cbn [get_json]. rewrite (truthy_dict d Hd). cbn [negb].
  rewrite !bind_lift. cbn [py_get].
  destruct Hq as [-> | ->], Hdoc as [-> | ->]; reflexivity.
Qed.

Lemma rerank_query_checked_first_witness :
  rerank None (Parsed (PyDict [("documents", PyList [])])) []
  = ((ErrorBody "Missing 'query' field", 400%Z), []).
Proof.
  apply (rerank_query_checked_first [("documents", PyList [])] None []).
  - discriminate.
  - left. reflexivity.
  - right. reflexivity.
Defined.

(** C9 (as stated) fails on the empty object: query and documents are
    both absent from it and the handler answers "No JSON data provided". *)
Lemma rerank_empty_object_no_query_error :
  dict_get [] "query" = None /\
  dict_get [] "documents" = None /\
  rerank (Some (stub_scorer [f0_9])) (Parsed (PyDict [])) []
  = ((ErrorBody "No JSON data provided", 400%Z), []).
Proof. repeat split. Qed.

Lemma rerank_request_status d q docs top_n predict s :
  rerank_request d q docs top_n ->
  snd (fst (rerank (Some predict) (Parsed (PyDict d)) s)) <> 400%Z.
Proof.
  intros Hr. unfold rerank. rewrite (rerank_try_request _ _ _ _ _ _ Hr).
  destruct (predict _) as [scores|e]; [|discriminate].
  cbv zeta. destruct (py_slice_to _ _) as [top|e]; [|discriminate].
  destruct scores; discriminate.
Qed.

(** C5 (as amended).  For a body that is a non-empty JSON object with a
    string (if any) under "query" and a list of strings (if any) under
    "documents": the answer is 400 "Missing 'query' field" exactly when
    query is absent or empty; it is 400 "Missing or empty 'documents'
    field" exactly when query is present and non-empty and documents is
    absent or empty; and in both cases the scorer has not been called. *)
Theorem rerank_validation_errors d predict s
        (query : option string) (documents : option (list string)) :
  d <> [] ->
  dict_get d "query" = option_map PyStr query ->
  dict_get d "documents" = option_map (fun l => PyList (map PyStr l)) documents ->
  let r := rerank (Some predict) (Parsed (PyDict d)) s in
  (fst r = (ErrorBody "Missing 'query' field", 400%Z)
   <-> (query = None \/ query = Some "")) /\
  (fst r = (ErrorBody "Missing or empty 'documents' field", 400%Z)
   <-> ((exists q, query = Some q /\ q <> "") /\
        (documents = None \/ documents = Some []))) /\
  (fst r = (ErrorBody "Missing 'query' field", 400%Z) \/
   fst r = (ErrorBody "Missing or empty 'documents' field", 400%Z) ->
   snd r = s).
Proof.
  intros Hd Hq Hdoc r.
  assert (Hmissing_q :
            query = None \/ query = Some "" ->
            r = ((ErrorBody "Missing 'query' field", 400%Z), s)).
  { intros H. subst r. unfold rerank, rerank_try.
    rewrite bind_lift. cbn [get_json]. rewrite (truthy_dict d Hd). cbn [negb].
    rewrite !bind_lift. cbn [py_get]. rewrite Hq, Hdoc.
    destruct H as [-> | ->]; destruct documents; reflexivity. }
  assert (Hmissing_d :
            forall q, query = Some q -> q <> "" ->
            documents = None \/ documents = Some [] ->
            r = ((ErrorBody "Missing or empty 'documents' field", 400%Z), s)).
  { intros q -> Hne H. subst r. unfold rerank, rerank_try.
    rewrite bind_lift. cbn [get_json]. rewrite (truthy_dict d Hd). cbn [negb].
    rewrite !bind_lift. cbn [py_get]. rewrite Hq, Hdoc. cbn [option_map].
    destruct H as [-> | ->]; cbn [option_map map py_len];
      rewrite (truthy_str q Hne); reflexivity. }
  destruct query as [q|].
  - destruct (String.eqb_spec q "") as [-> | Hne].
    + rewrite (Hmissing_q (or_intror eq_refl)). cbn [fst snd].
      split; [|split].
      * split; auto.
      * split; [discriminate|]. intros [[q [Hq' Hne]] _]. congruence.
      * reflexivity.
    + destruct documents as [[|doc docs]|].
      * rewrite (Hmissing_d q eq_refl Hne (or_intror eq_refl)). cbn [fst snd].
        split; [|split].
        -- split; [discriminate|]. intros [H | H]; congruence.
        -- split; [|reflexivity]. intros _. split; [now exists q | now right].
        -- reflexivity.
      * assert (Hr : rerank_request d q (doc :: docs) (dict_get d "top_n")).
        { constructor; try assumption; try reflexivity. discriminate. }
        pose proof (rerank_request_status _ _ _ _ predict s Hr) as Hst.
        fold r in Hst.
        split; [|split].
        -- split; [intros H; rewrite H in Hst; now elim Hst|].
           intros [H | H]; congruence.
        -- split; [intros H; rewrite H in Hst; now elim Hst|].
           intros [_ [H | H]]; congruence.
        -- intros [H | H]; rewrite H in Hst; now elim Hst.
      * rewrite (Hmissing_d q eq_refl Hne (or_introl eq_refl)). cbn [fst snd].
        split; [|split].
        -- split; [discriminate|]. intros [H | H]; congruence.
        -- split; [|reflexivity]. intros _. split; [now exists q | now left].
        -- reflexivity.
  - rewrite (Hmissing_q (or_introl eq_refl)). cbn [fst snd].
    split; [|split].
    + split; auto.
    + split; [discriminate|]. intros [[q [Hq' _]] _]. discriminate.
    + reflexivity.
Qed.

Lemma rerank_validation_errors_witness :
  let r := rerank (Some (stub_scorer [f0_9]))
                  (Parsed (PyDict [("query", PyStr "cat"); ("documents", PyList [])])) [] in
  (fst r = (ErrorBody "Missing 'query' field", 400%Z)
   <-> (Some "cat" = None \/ Some "cat" = Some "")) /\
  (fst r = (ErrorBody "Missing or empty 'documents' field", 400%Z)
   <-> ((exists q, Some "cat" = Some q /\ q <> "") /\
        (Some (@nil string) = None \/ Some (@nil string) = Some []))) /\
  (fst r = (ErrorBody "Missing 'query' field", 400%Z) \/
   fst r = (ErrorBody "Missing or empty 'documents' field", 400%Z) ->
   snd r = []).
Proof.
  apply (rerank_validation_errors
           [("query", PyStr "cat"); ("documents", PyList [])]
           (stub_scorer [f0_9]) [] (Some "cat") (Some [])).
  - discriminate.
  - reflexivity.
  - reflexivity.
Defined.

(** C5 (as stated) fails on the empty object: its query is absent, and
    the answer is "No JSON data provided", not the query error. *)
Lemma rerank_empty_object_no_data :
  dict_get [] "query" = None /\
  fst (rerank (Some (stub_scorer [f0_9])) (Parsed (PyDict [])) [])
  = (ErrorBody "No JSON data provided", 400%Z) /\
  fst (rerank (Some (stub_scorer [f0_9])) (Parsed (PyDict [])) [])
  <> (ErrorBody "Missing 'query' field", 400%Z).
Proof. repeat split. discriminate. Qed.




(** ** Bodies the validation does not expect *)

(** X1.  A body whose JSON value is falsy ([null], [false], [0], [0.0],
    the empty string, [[]] or [{}]) is answered 400 "No JSON data
    provided", whatever the model, and the scorer is not called. *)
Theorem rerank_falsy_body model v s :
  truthy v = false ->
  rerank model (Parsed v) s = ((ErrorBody "No JSON data provided", 400%Z), s).
Proof.
  intros Hv. unfold rerank, rerank_try.
  rewrite bind_lift. cbn [get_json]. rewrite Hv. reflexivity.
Qed.

Lemma rerank_falsy_body_witness :
  rerank None (Parsed (PyList [])) []
  = ((ErrorBody "No JSON data provided", 400%Z), []).
Proof.
  apply (rerank_falsy_body None (PyList []) []). reflexivity.
Defined.

(** X2.  A truthy body that is not an object (a non-empty array or
    string, a non-zero number, [true]) has no [get]: the answer is 500
    with the text of the [AttributeError], and the scorer is not called. *)
Theorem rerank_non_object_body model v s :
  truthy v = true ->
  (forall d, v <> PyDict d) ->
  rerank model (Parsed v) s
  = ((ErrorBody ("'" ++ type_name v ++ "' object has no attribute 'get'"), 500%Z), s).
Proof.
  intros Hv Hd. unfold rerank, rerank_try.
  rewrite bind_lift. cbn [get_json]. rewrite Hv. cbn [negb].
  rewrite bind_lift.
  destruct v; try reflexivity. elim (Hd d). reflexivity.
Qed.

Lemma rerank_non_object_body_witness :
  rerank None (Parsed (PyList [PyStr "cat"])) []
  = ((ErrorBody "'list' object has no attribute 'get'", 500%Z), []).
Proof.
  apply (rerank_non_object_body None (PyList [PyStr "cat"]) []).
  - reflexivity.
  - discriminate.
Defined.

(** X3.  In a non-empty object whose documents value has no length
    ([null], a number, a boolean), [len(documents)] is evaluated for the
    default of top_n before any check: the answer is 500 "object of type
    ... has no len()" even when query is missing and even when top_n is
    given, and the scorer is not called. *)
Theorem rerank_documents_without_len d v model s :
  dict_get d "documents" = Some v ->
  has_len v = false ->
  rerank model (Parsed (PyDict d)) s
  = ((ErrorBody ("object of type '" ++ type_name v ++ "' has no len()"), 500%Z), s).
Proof.
  intros Hd Hv.
  assert (Hne : d <> []) by (intros ->; discriminate Hd).
  unfold rerank, rerank_try.
  rewrite bind_lift. cbn [get_json]. rewrite (truthy_dict d Hne). cbn [negb].
  rewrite !bind_lift. cbn [py_get]. rewrite Hd.
  unfold has_len in Hv.
  destruct v; try discriminate Hv; reflexivity.
Qed.

Lemma rerank_documents_without_len_witness :
  rerank None (Parsed (PyDict [("documents", PyNone); ("top_n", PyInt 3)])) []
  = ((ErrorBody "object of type 'NoneType' has no len()", 500%Z), []).
Proof.
  apply (rerank_documents_without_len
           [("documents", PyNone); ("top_n", PyInt 3)] PyNone None []).
  - reflexivity.
  - reflexivity.
Defined.

(** X4.  The query check is a truthiness test: in a non-empty object
    whose documents are absent or have a length, any falsy query (absent,
    [null], "", [0], [false], [[]], [{}]) gets the query error, and the
    scorer is not called. *)
Theorem rerank_falsy_query d model s :
  d <> [] ->
  (dict_get d "documents" = None \/
   exists v, dict_get d "documents" = Some v /\ has_len v = true) ->
  truthy (field d "query") = false ->
  rerank model (Parsed (PyDict d)) s = ((ErrorBody "Missing 'query' field", 400%Z), s).
Proof.
  intros Hne Hd Hq. unfold field in Hq. unfold rerank, rerank_try.
  rewrite bind_lift. cbn [get_json]. rewrite (truthy_dict d Hne). cbn [negb].
  rewrite !bind_lift. cbn [py_get].
  destruct Hd as [-> | [v [-> Hv]]].
  - cbn [py_len]. rewrite !bind_lift. rewrite Hq. reflexivity.
  - rewrite !bind_lift. unfold has_len in Hv.
    destruct (py_len v) as [n|e]; [|discriminate].
    rewrite !bind_lift. rewrite Hq. reflexivity.
Qed.

Lemma rerank_falsy_query_witness :
  rerank None
         (Parsed (PyDict [("query", PyInt 0); ("documents", PyList [PyStr "a cat sat"])]))
         []
  = ((ErrorBody "Missing 'query' field", 400%Z), []).
Proof.
  apply (rerank_falsy_query
           [("query", PyInt 0); ("documents", PyList [PyStr "a cat sat"])] None []).
  - discriminate.
  - right. exists (PyList [PyStr "a cat sat"]). split; reflexivity.
  - reflexivity.
Defined.

(** X5.  A query that is a non-zero number or [true] passes the query
    check; with documents that pass theirs, the first log line slices the
    query and fails: the answer is 500 "... object is not subscriptable",
    and the scorer is not called. *)
Theorem rerank_query_number d vq vd model s :
  dict_get d "query" = Some vq ->
  is_number vq = true -> truthy vq = true ->
  dict_get d "documents" = Some vd ->
  has_len vd = true -> truthy vd = true ->
  rerank model (Parsed (PyDict d)) s
  = ((ErrorBody ("'" ++ type_name vq ++ "' object is not subscriptable"), 500%Z), s).
Proof.
  intros Hq Hnum Htq Hd Hlen Htd.
  assert (Hne : d <> []) by (intros ->; discriminate Hq).
  unfold rerank, rerank_try.
  rewrite bind_lift. cbn [get_json]. rewrite (truthy_dict d Hne). cbn [negb].
  rewrite !bind_lift. cbn [py_get]. rewrite Hq, Hd. rewrite !bind_lift.
  unfold has_len in Hlen. destruct (py_len vd) as [n|e]; [|discriminate].
  rewrite !bind_lift. rewrite Htq, Htd. cbn [negb]. rewrite !bind_lift.
  destruct vq; try discriminate Hnum; reflexivity.
Qed.

Lemma rerank_query_number_witness :
  rerank None
         (Parsed (PyDict [("query", PyInt 7); ("documents", PyList [PyStr "a cat sat"])]))
         []
  = ((ErrorBody "'int' object is not subscriptable", 500%Z), []).
Proof.
  apply (rerank_query_number
           [("query", PyInt 7); ("documents", PyList [PyStr "a cat sat"])]
           (PyInt 7) (PyList [PyStr "a cat sat"]) None []);
    reflexivity.
Defined.

(** ** The scorer's part in a request *)

(** X6.  Before [main] has loaded a model the global is [None]: a
    well-formed request then gets 500 with the text of the
    [AttributeError] raised by [model.predict], and no call is logged. *)
Theorem rerank_model_not_loaded d q docs top_n s :
  rerank_request d q docs top_n ->
  rerank None (Parsed (PyDict d)) s
  = ((ErrorBody "'NoneType' object has no attribute 'predict'", 500%Z), s).
Proof.
  intros [Hq Hqne Hd Hdne Ht].
  assert (Hne : d <> []) by (intros ->; discriminate Hq).
  unfold rerank, rerank_try. rewrite bind_lift. cbn [get_json].
  rewrite (truthy_dict d Hne). cbn [negb].
  rewrite bind_lift. cbn [py_get]. rewrite Hq.
  rewrite bind_lift. cbn [py_get]. rewrite Hd.
  rewrite bind_lift. cbn [py_len].
  rewrite bind_lift. cbn [py_get].
  rewrite (truthy_str q Hqne), (truthy_docs docs Hdne). cbn [negb].
  rewrite bind_lift. cbn [py_len].
  rewrite bind_lift. cbn [py_prefix50].
  rewrite bind_lift. cbn [py_iter].
  rewrite bind_predict. reflexivity.
Qed.

Lemma rerank_model_not_loaded_witness :
  rerank None (Parsed (PyDict (cat_request []))) []
  = ((ErrorBody "'NoneType' object has no attribute 'predict'", 500%Z), []).
Proof.
  apply (rerank_model_not_loaded (cat_request []) "cat" cat_documents None []).
  constructor; try reflexivity; discriminate.
Defined.

(** X7.  For a request with a non-empty query string and a non-empty list
    of document strings, whatever its top_n, the scorer is called exactly
    once, with one [query, doc] pair per document in the order of the
    documents; this holds whether the scorer returns or raises. *)
Theorem rerank_scorer_called_once d q docs top_n predict s :
  rerank_request d q docs top_n ->
  snd (rerank (Some predict) (Parsed (PyDict d)) s)
  = s ++ [map (fun doc => (PyStr q, PyStr doc)) docs].
Proof.
  intros Hr. unfold rerank. rewrite (rerank_try_request _ _ _ _ _ _ Hr).
  unfold pairs_of. rewrite map_map.
  destruct (predict _) as [scores|e]; [|reflexivity].
  cbv zeta. destruct (py_slice_to _ _) as [top|e]; [|reflexivity].
  destruct scores; reflexivity.
Qed.

Lemma rerank_scorer_called_once_witness :
  snd (rerank (Some (fun _ => Raise (ScorerError "CUDA out of memory")))
              (Parsed (PyDict (cat_request [("top_n", PyStr "2")]))) [])
  = [] ++ [map (fun doc => (PyStr "cat", PyStr doc)) cat_documents].
Proof.
  apply (rerank_scorer_called_once
           (cat_request [("top_n", PyStr "2")]) "cat" cat_documents
           (Some (PyStr "2")) (fun _ => Raise (ScorerError "CUDA out of memory")) []).
  constructor; try reflexivity; discriminate.
Defined.

(** X8.  Only "query", "documents" and "top_n" are read: two non-empty
    objects that agree on these three keys get the same response and
    leave the same call log (a "model" entry, for one, changes nothing). *)
Theorem rerank_reads_three_fields d1 d2 model s :
  d1 <> [] -> d2 <> [] ->
  dict_get d1 "query" = dict_get d2 "query" ->
  dict_get d1 "documents" = dict_get d2 "documents" ->
  dict_get d1 "top_n" = dict_get d2 "top_n" ->
  rerank model (Parsed (PyDict d1)) s = rerank model (Parsed (PyDict d2)) s.
Proof.
  intros H1 H2 Hq Hd Ht. unfold rerank, rerank_try.
  rewrite !bind_lift. cbn [get_json].
  rewrite (truthy_dict d1 H1), (truthy_dict d2 H2). cbn [negb].
  rewrite ?bind_lift. cbn [py_get]. rewrite ?bind_lift. cbn [py_get].
  rewrite Hq, Hd. rewrite ?bind_lift.
  destruct (py_len _) as [n|e]; [|reflexivity].
  rewrite ?bind_lift. cbn [py_get]. rewrite Ht. reflexivity.
Qed.

Lemma rerank_reads_three_fields_witness :
  rerank (Some (stub_scorer [f0_9; f0_1; f0_8]))
         (Parsed (PyDict (("model", PyStr "cross-encoder/quora-distilroberta-base")
                            :: cat_request []))) []
  = rerank (Some (stub_scorer [f0_9; f0_1; f0_8]))
           (Parsed (PyDict (cat_request []))) [].
Proof.
  apply (rerank_reads_three_fields
           (("model", PyStr "cross-encoder/quora-distilroberta-base") :: cat_request [])
           (cat_request []) (Some (stub_scorer [f0_9; f0_1; f0_8])) []);
    try discriminate; reflexivity.
Defined.

Lemma slice_stop_of_nat n m : slice_stop n (Z.of_nat m) = m.
Proof.
  unfold slice_stop. destruct (Z.ltb_spec (Z.of_nat m) 0); [lia|].
  apply Nat2Z.id.
Qed.

(** X9.  A top_n of [null] behaves as an omitted top_n: with a scorer that
    returns one score per document (or raises), the two requests get the
    same response. *)
Theorem rerank_top_n_null_as_omitted d1 d2 q docs predict s :
  rerank_request d1 q docs (Some PyNone) ->
  rerank_request d2 q docs None ->
  (forall scores, predict (pairs_of q docs) = Ok scores ->
                  List.length scores = List.length docs) ->
  rerank (Some predict) (Parsed (PyDict d1)) s
  = rerank (Some predict) (Parsed (PyDict d2)) s.
Proof.
  intros Hr1 Hr2 Hlen. unfold rerank.
  rewrite (rerank_try_request _ _ _ _ _ _ Hr1), (rerank_try_request _ _ _ _ _ _ Hr2).
  destruct (predict _) as [scores|e]; [|reflexivity].
  specialize (Hlen scores eq_refl).
  cbv zeta. cbn [top_n_value py_slice_to].
  rewrite slice_stop_of_nat, firstn_all2; [reflexivity|].
  rewrite list_sort_length, enumerate_length. lia.
Qed.

Lemma rerank_top_n_null_as_omitted_witness :
  rerank (Some (stub_scorer [f0_9; f0_1; f0_8]))
         (Parsed (PyDict (cat_request [("top_n", PyNone)]))) []
  = rerank (Some (stub_scorer [f0_9; f0_1; f0_8]))
           (Parsed (PyDict (cat_request []))) [].
Proof.
  apply (rerank_top_n_null_as_omitted
           (cat_request [("top_n", PyNone)]) (cat_request []) "cat" cat_documents
           (stub_scorer [f0_9; f0_1; f0_8]) []).
  - constructor; try reflexivity; discriminate.
  - constructor; try reflexivity; discriminate.
  - intros scores H. injection H as <-. reflexivity.
Defined.

(** X10.  A non-empty string under "documents" passes the documents
    check: the scorer is called with one pair per character of the
    string. *)
Theorem rerank_documents_string d q text predict s :
  dict_get d "query" = Some (PyStr q) -> q <> "" ->
  dict_get d "documents" = Some (PyStr text) -> text <> "" ->
  snd (rerank (Some predict) (Parsed (PyDict d)) s)
  = s ++ [map (fun c => (PyStr q, c)) (chars text)] /\
  List.length (chars text) = String.length text.
Proof.
  intros Hq Hqne Hd Htne.
  assert (Hne : d <> []) by (intros ->; discriminate Hq).
  split.
  - unfold rerank, rerank_try. rewrite bind_lift. cbn [get_json].
    rewrite (truthy_dict d Hne). cbn [negb].
    rewrite bind_lift. cbn [py_get]. rewrite Hq.
    rewrite bind_lift. cbn [py_get]. rewrite Hd.
    rewrite bind_lift. cbn [py_len].
    rewrite bind_lift. cbn [py_get].
    rewrite (truthy_str q Hqne), (truthy_str text Htne). cbn [negb].
    rewrite bind_lift. cbn [py_len].
    rewrite bind_lift. cbn [py_prefix50].
    rewrite bind_lift. cbn [py_iter].
    rewrite bind_predict.
    destruct (predict _) as [scores|e]; [|reflexivity].
    cbv zeta. rewrite bind_lift.
    destruct (py_slice_to _ _) as [top|e]; [|reflexivity].
    rewrite !bind_lift. destruct (log_stats scores); reflexivity.
  - clear. induction text as [|c text IH]; simpl; congruence.
Qed.

Lemma rerank_documents_string_witness :
  snd (rerank (Some (stub_scorer [f0_9; f0_1]))
              (Parsed (PyDict [("query", PyStr "cat"); ("documents", PyStr "ab")])) [])
  = [] ++ [map (fun c => (PyStr "cat", c)) (chars "ab")] /\
  List.length (chars "ab") = String.length "ab".
Proof.
  apply (rerank_documents_string
           [("query", PyStr "cat"); ("documents", PyStr "ab")] "cat" "ab"
           (stub_scorer [f0_9; f0_1]) []);
    try reflexivity; discriminate.
Defined.

(** ** Every request, well-formed or not *)

Lemma py_slice_to_prefix {A} (l : list A) v t :
  py_slice_to l v = Ok t -> exists n, t = firstn n l.
Proof.
  destruct v; simpl; intros H; try discriminate H; injection H as <-.
  - exists (List.length l). now rewrite firstn_all.
  - eexists. reflexivity.
  - eexists. reflexivity.
Qed.

Lemma rerank_cases model p s :
  (snd (rerank model p s) = s /\
   ((exists msg, fst (rerank model p s) = (ErrorBody msg, 500%Z)) \/
    fst (rerank model p s) = (ErrorBody "No JSON data provided", 400%Z) \/
    fst (rerank model p s) = (ErrorBody "Missing 'query' field", 400%Z) \/
    fst (rerank model p s) = (ErrorBody "Missing or empty 'documents' field", 400%Z)))
  \/
  (exists predict pairs,
     model = Some predict /\
     snd (rerank model p s) = s ++ [pairs] /\
     ((exists msg, fst (rerank model p s) = (ErrorBody msg, 500%Z)) \/
      (exists scores n,
         predict pairs = Ok scores /\
         fst (rerank model p s)
         = (RankBody
              (map snd (firstn n (list_sort score_lt true (enumerate scores))))
              (map fst (firstn n (list_sort score_lt true (enumerate scores)))),
            200%Z)))).
Proof.
  unfold rerank, rerank_try. rewrite ?bind_lift.
  destruct (get_json p) as [data|e]; [|answer_500].
  destruct (negb (truthy data));
    [left; split; [reflexivity | right; left; reflexivity]|].
  rewrite ?bind_lift.
  destruct (py_get data "query" PyNone) as [query|e]; [|answer_500].
  rewrite ?bind_lift.
  destruct (py_get data "documents" (PyList [])) as [documents|e]; [|answer_500].
  rewrite ?bind_lift.
  destruct (py_len documents) as [n|e]; [|answer_500].
  rewrite ?bind_lift.
  destruct (py_get data "top_n" (PyInt (Z.of_nat n))) as [top_n|e]; [|answer_500].
  destruct (negb (truthy query));
    [left; split; [reflexivity | right; right; left; reflexivity]|].
  destruct (negb (truthy documents));
    [left; split; [reflexivity | right; right; right; reflexivity]|].
  rewrite ?bind_lift.
  destruct (py_prefix50 query) as [?|e]; [|answer_500].
  rewrite ?bind_lift.
  destruct (py_iter documents) as [docs|e]; [|answer_500].
  rewrite ?bind_predict.
  destruct model as [predict|]; [|answer_500].
  right. exists predict, (map (fun doc => (query, doc)) docs).
  split; [reflexivity|].
  destruct (predict _) as [scores|e] eqn:Hp;
    [|split; [reflexivity | left; eexists; reflexivity]].
  cbv zeta. rewrite ?bind_lift.
  destruct (py_slice_to _ top_n) as [top|e] eqn:Hs;
    [|split; [reflexivity | left; eexists; reflexivity]].
  rewrite ?bind_lift.
  destruct (log_stats scores);
    [|split; [reflexivity | left; eexists; reflexivity]].
  split; [reflexivity|]. right.
  apply py_slice_to_prefix in Hs. destruct Hs as [m ->].
  exists scores, m. split; reflexivity.
Qed.

Lemma ranked_prefix_In n scores p :
  In p (firstn n (list_sort score_lt true (enumerate scores))) ->
  In p (enumerate scores).
Proof.
  intros H. apply In_firstn in H.
  eapply Permutation_in; [apply list_sort_perm | exact H].
Qed.

Lemma ranked_prefix_NoDup n scores :
  NoDup (map fst (firstn n (list_sort score_lt true (enumerate scores)))).
Proof.
  rewrite <- firstn_map. apply NoDup_firstn.
  eapply Permutation_NoDup.
  - apply Permutation_map, Permutation_sym, list_sort_perm.
  - unfold enumerate. rewrite combine_seq_fst. apply seq_NoDup.
Qed.

(** X11.  Whatever the model and the body, a ranking is answered with
    200 and an error envelope with 400 or 500: no other status and no
    other pairing occurs. *)
Theorem rerank_status model p s :
  match fst (fst (rerank model p s)) with
  | RankBody _ _ => snd (fst (rerank model p s)) = 200%Z
  | ErrorBody _ =>
      snd (fst (rerank model p s)) = 400%Z \/ snd (fst (rerank model p s)) = 500%Z
  end.
Proof.
  destruct (rerank_cases model p s)
    as [[_ [[msg H] | [H | [H | H]]]]
       | [predict [pairs [_ [_ [[msg H] | [scores [n [_ H]]]]]]]]];
    rewrite H; cbn; auto.
Qed.

(** X12.  One request calls the scorer at most once; an answer with
    status 400 is given without calling it, and a ranking is only ever
    given after calling it. *)
Theorem rerank_scorer_at_most_once model p s :
  (snd (rerank model p s) = s \/ exists pairs, snd (rerank model p s) = s ++ [pairs]) /\
  (snd (fst (rerank model p s)) = 400%Z -> snd (rerank model p s) = s) /\
  (forall ss idx st,
     fst (rerank model p s) = (RankBody ss idx, st) ->
     exists pairs, snd (rerank model p s) = s ++ [pairs]).
Proof.
  destruct (rerank_cases model p s)
    as [[Hs [[msg H] | [H | [H | H]]]]
       | [predict [pairs [_ [Hs [[msg H] | [scores [n [_ H]]]]]]]]];
    rewrite H; cbn [fst snd];
    (split; [first [now left | right; now exists pairs]|]);
    (split; [first [now intros _ | discriminate]|]);
    intros ss idx st E; first [discriminate E | now exists pairs].
Qed.

(** X13.  Every ranking the handler returns, for any body and any top_n
    the slice accepts, has status 200 and two arrays of the same length;
    its indices are pairwise distinct, and each one is a position in the
    scores the scorer returned for this request, with [scores[i]] the
    score found there. *)
Theorem rerank_ranking_invariant model p s ss idx st :
  fst (rerank model p s) = (RankBody ss idx, st) ->
  st = 200%Z /\
  List.length ss = List.length idx /\
  NoDup idx /\
  exists predict pairs scores,
    model = Some predict /\
    predict pairs = Ok scores /\
    snd (rerank model p s) = s ++ [pairs] /\
    forall i x, nth_error idx i = Some x ->
                exists sc, nth_error scores x = Some sc /\ nth_error ss i = Some sc.
Proof.
  intros E.
  destruct (rerank_cases model p s)
    as [[_ [[msg H] | [H | [H | H]]]]
       | [predict [pairs [Hm [Hs [[msg H] | [scores [n [Hp H]]]]]]]]];
    rewrite H in E; try discriminate E.
  injection E as <- <- <-.
  split; [reflexivity|]. split; [now rewrite !length_map|].
  split; [apply ranked_prefix_NoDup|].
  exists predict, pairs, scores. repeat split; try assumption.
  intros i x Hx. rewrite nth_error_map in Hx.
  destruct (nth_error (firstn n _) i) as [[x' sc]|] eqn:Ei; [|discriminate].
  cbn in Hx. injection Hx as ->.
  exists sc. split.
  - apply enumerate_nth. eapply ranked_prefix_In, nth_error_In. exact Ei.
  - rewrite nth_error_map, Ei. reflexivity.
Qed.

Lemma rerank_ranking_invariant_witness :
  200%Z = 200%Z /\
  List.length [f0_9] = List.length [0] /\
  NoDup [0] /\
  exists predict pairs scores,
    Some (stub_scorer [f0_9; f0_1; f0_8]) = Some predict /\
    predict pairs = Ok scores /\
    snd (rerank (Some (stub_scorer [f0_9; f0_1; f0_8]))
                (Parsed (PyDict (cat_request [("top_n", PyBool true)]))) [])
    = [] ++ [pairs] /\
    forall i x, nth_error [0] i = Some x ->
                exists sc, nth_error scores x = Some sc /\ nth_error [f0_9] i = Some sc.
Proof.
  apply (rerank_ranking_invariant
           (Some (stub_scorer [f0_9; f0_1; f0_8]))
           (Parsed (PyDict (cat_request [("top_n", PyBool true)]))) []
           [f0_9] [0] 200%Z).
  reflexivity.
Defined.

(** X14.  With a scorer that never returns a NaN, every ranking the
    handler returns, for any body and any top_n the slice accepts, is in
    descending order of score, and entries with equal scores are in
    ascending order of index. *)
Theorem rerank_ranking_sorted predict p s ss idx st :
  (forall pairs scores, predict pairs = Ok scores -> no_nan scores) ->
  fst (rerank (Some predict) p s) = (RankBody ss idx, st) ->
  forall i j si sj xi xj,
    i < j ->
    nth_error ss i = Some si -> nth_error ss j = Some sj ->
    nth_error idx i = Some xi -> nth_error idx j = Some xj ->
    SFleb sj si = true /\ (SFeqb si sj = true -> xi < xj).
Proof.
  intros Hnan E.
  destruct (rerank_cases (Some predict) p s)
    as [[_ [[msg H] | [H | [H | H]]]]
       | [predict' [pairs [Hm [Hs [[msg H] | [scores [n [Hp H]]]]]]]]];
    rewrite H in E; try discriminate E.
  injection Hm as <-. injection E as <- <- <-.
  intros i j si sj xi xj Hij Hsi Hsj Hxi Hxj.
  rewrite nth_error_map in Hsi, Hsj, Hxi, Hxj.
  destruct (nth_error (firstn n _) i) as [[a sa]|] eqn:Ei; [|discriminate].
  destruct (nth_error (firstn n _) j) as [[b sb]|] eqn:Ej; [|discriminate].
  cbn in Hsi, Hsj, Hxi, Hxj.
  injection Hsi as <-. injection Hsj as <-. injection Hxi as <-. injection Hxj as <-.
  pose proof (StronglySorted_firstn ranked_before n _
                (sort_ranked scores (Hnan pairs scores Hp))) as Hsorted.
  exact (StronglySorted_nth _ _ Hsorted i j (a, sa) (b, sb) Hij Ei Ej).
Qed.

Lemma rerank_ranking_sorted_witness :
  SFleb f0_1 f0_9 = true /\ (SFeqb f0_9 f0_1 = true -> 0 < 1).
Proof.
  apply (rerank_ranking_sorted
           (stub_scorer [f0_9; f0_1; f0_8])
           (Parsed (PyDict (cat_request [("top_n", PyNone)]))) []
           [f0_9; f0_8; f0_1] [0; 2; 1] 200%Z)
    with (i := 0) (j := 2).
  - intros pairs scores H. injection H as <-. repeat constructor.
  - reflexivity.
  - lia.
  - reflexivity.
  - reflexivity.
  - reflexivity.
  - reflexivity.
Defined.

(** ** The ranking of a valid request *)

Lemma SFleb_refl a : is_nan a = false -> SFleb a a = true.
Proof.
  unfold SFleb, SFcompare.
  change (Pos.compare_cont Eq) with Pos.compare.
  destruct a; simpl; float_cases.
Qed.

Lemma combine_seq_snd {A} (l : list A) a :
  map snd (combine (seq a (List.length l)) l) = l.
Proof.
  revert a. induction l as [|x l IH]; intros a; simpl; [reflexivity|].
  now rewrite IH.
Qed.

Lemma combine_seq_In {A} (l : list A) a x :
  In x l -> exists i, In (i, x) (combine (seq a (List.length l)) l).
Proof.
  revert a. induction l as [|y l IH]; intros a; simpl; [contradiction|].
  intros [-> | H].
  - exists a. now left.
  - destruct (IH (S a) H) as [i Hi]. exists i. now right.
Qed.

Lemma top_ranked_all scores docs :
  List.length scores = List.length docs ->
  top_ranked scores (limit docs None) = list_sort score_lt true (enumerate scores).
Proof.
  intros Hlen. unfold top_ranked, limit.
  rewrite slice_stop_of_nat, firstn_all2; [reflexivity|].
  rewrite list_sort_length, enumerate_length. lia.
Qed.

(** X15.  top_n truncates and does nothing else: for a valid request the
    arrays answered with [top_n = k >= 0] are the first [k] entries of
    the arrays answered without top_n, and those answered with a negative
    [k] are the same arrays without their last [-k] entries. *)
Theorem rerank_top_n_prefix d1 d2 q docs k predict scores s :
  valid_request d1 q docs (Some k) ->
  valid_request d2 q docs None ->
  predict (pairs_of q docs) = Ok scores ->
  List.length scores = List.length docs ->
  exists ss idx,
    fst (rerank (Some predict) (Parsed (PyDict d2)) s) = (RankBody ss idx, 200%Z) /\
    ((0 <= k)%Z ->
     fst (rerank (Some predict) (Parsed (PyDict d1)) s)
     = (RankBody (firstn (Z.to_nat k) ss) (firstn (Z.to_nat k) idx), 200%Z)) /\
    ((k < 0)%Z ->
     fst (rerank (Some predict) (Parsed (PyDict d1)) s)
     = (RankBody (firstn (List.length docs - Z.to_nat (- k)) ss)
                 (firstn (List.length docs - Z.to_nat (- k)) idx), 200%Z)).
Proof.
  intros Hv1 Hv2 Hp Hlen.
  rewrite (rerank_valid_response _ _ _ _ _ _ s Hv1 Hp Hlen).
  rewrite (rerank_valid_response _ _ _ _ _ _ s Hv2 Hp Hlen).
  rewrite (top_ranked_all scores docs Hlen). cbn [fst limit].
  eexists _, _. split; [reflexivity|].
  unfold top_ranked, slice_stop. rewrite !firstn_map, Hlen.
  split; intros Hk; destruct (Z.ltb_spec k 0); try lia.
  - reflexivity.
  - replace (Z.to_nat (Z.of_nat (List.length docs) + k))
      with (List.length docs - Z.to_nat (- k)) by lia.
    reflexivity.
Qed.

Lemma rerank_top_n_prefix_witness :
  exists ss idx,
    fst (rerank (Some (stub_scorer [f0_9; f0_1; f0_8]))
                (Parsed (PyDict (cat_request (top_n_item None)))) [])
    = (RankBody ss idx, 200%Z) /\
    ((0 <= -1)%Z ->
     fst (rerank (Some (stub_scorer [f0_9; f0_1; f0_8]))
                 (Parsed (PyDict (cat_request (top_n_item (Some (-1)%Z))))) [])
     = (RankBody (firstn (Z.to_nat (-1)) ss) (firstn (Z.to_nat (-1)) idx), 200%Z)) /\
    ((-1 < 0)%Z ->
     fst (rerank (Some (stub_scorer [f0_9; f0_1; f0_8]))
                 (Parsed (PyDict (cat_request (top_n_item (Some (-1)%Z))))) [])
     = (RankBody (firstn (List.length cat_documents - Z.to_nat (- -1)) ss)
                 (firstn (List.length cat_documents - Z.to_nat (- -1)) idx), 200%Z)).
Proof.
  apply (rerank_top_n_prefix
           (cat_request (top_n_item (Some (-1)%Z))) (cat_request (top_n_item None))
           "cat" cat_documents (-1)%Z
           (stub_scorer [f0_9; f0_1; f0_8]) [f0_9; f0_1; f0_8] []).
  - constructor; try reflexivity; discriminate.
  - constructor; try reflexivity; discriminate.
  - reflexivity.
  - reflexivity.
Defined.

(** X16.  Without top_n nothing is lost or invented: the scores answered
    are a rearrangement of the scores the scorer returned, and the
    indices a rearrangement of [0 .. len(documents)-1]. *)
Theorem rerank_full_ranking_permutation d q docs predict scores s :
  valid_request d q docs None ->
  predict (pairs_of q docs) = Ok scores ->
  List.length scores = List.length docs ->
  exists ss idx,
    fst (rerank (Some predict) (Parsed (PyDict d)) s) = (RankBody ss idx, 200%Z) /\
    Permutation ss scores /\
    Permutation idx (seq 0 (List.length docs)).
Proof.
  intros Hv Hp Hlen.
  rewrite (rerank_valid_response _ _ _ _ _ _ s Hv Hp Hlen).
  rewrite (top_ranked_all scores docs Hlen). cbn [fst].
  eexists _, _. split; [reflexivity|]. split.
  - rewrite (list_sort_perm score_lt true (enumerate scores)).
    unfold enumerate. now rewrite combine_seq_snd.
  - rewrite (list_sort_perm score_lt true (enumerate scores)).
    unfold enumerate. now rewrite combine_seq_fst, Hlen.
Qed.

Lemma rerank_full_ranking_permutation_witness :
  exists ss idx,
    fst (rerank (Some (stub_scorer [f0_9; f0_1; f0_8]))
                (Parsed (PyDict (cat_request (top_n_item None)))) [])
    = (RankBody ss idx, 200%Z) /\
    Permutation ss [f0_9; f0_1; f0_8] /\
    Permutation idx (seq 0 (List.length cat_documents)).
Proof.
  apply (rerank_full_ranking_permutation
           (cat_request (top_n_item None)) "cat" cat_documents
           (stub_scorer [f0_9; f0_1; f0_8]) [f0_9; f0_1; f0_8] []).
  - constructor; try reflexivity; discriminate.
  - reflexivity.
  - reflexivity.
Defined.

(** X17.  For a valid request with top_n omitted or at least 1 and scores
    without NaN, the response is not empty and its first score is [>=]
    every score the scorer returned. *)
Theorem rerank_best_first d q docs top_n predict scores s :
  valid_request d q docs top_n ->
  (top_n = None \/ exists k, top_n = Some k /\ (1 <= k)%Z) ->
  predict (pairs_of q docs) = Ok scores ->
  List.length scores = List.length docs ->
  no_nan scores ->
  exists best rest idx,
    fst (rerank (Some predict) (Parsed (PyDict d)) s)
    = (RankBody (best :: rest) idx, 200%Z) /\
    forall sc, In sc scores -> SFleb sc best = true.
Proof.
  intros Hv Htop Hp Hlen Hn.
  rewrite (rerank_valid_response _ _ _ _ _ _ s Hv Hp Hlen). cbn [fst].
  assert (Hdocs : 1 <= List.length docs).
  { destruct Hv as [_ _ _ Hne _]. destruct docs; [contradiction | simpl; lia]. }
  assert (Hm : exists m, slice_stop (List.length scores) (limit docs top_n) = S m).
  { unfold slice_stop. destruct Htop as [-> | [k [-> Hk]]]; cbn [limit].
    - destruct (Z.ltb_spec (Z.of_nat (List.length docs)) 0); [lia|].
      exists (List.length docs - 1). lia.
    - destruct (Z.ltb_spec k 0); [lia|]. exists (Z.to_nat k - 1). lia. }
  destruct Hm as [m Hm]. unfold top_ranked. rewrite Hm.
  pose proof (sort_ranked scores Hn) as Hsorted.
  pose proof (list_sort_length score_lt true (enumerate scores)) as HL.
  pose proof (list_sort_perm score_lt true (enumerate scores)) as Hperm.
  rewrite enumerate_length in HL.
  destruct (list_sort score_lt true (enumerate scores)) as [|[b best] L];
    [simpl in HL; lia|].
  cbn [firstn map snd fst].
  eexists _, _, _. split; [reflexivity|].
  intros sc Hsc.
  destruct (combine_seq_In scores 0 sc Hsc) as [i Hi].
  apply (Permutation_in _ (Permutation_sym Hperm)) in Hi.
  destruct Hi as [Hi | Hi].
  - injection Hi as _ <-. apply SFleb_refl.
    unfold no_nan in Hn. rewrite Forall_forall in Hn. now apply Hn.
  - inversion Hsorted as [|? ? _ Hall]; subst.
    rewrite Forall_forall in Hall. destruct (Hall _ Hi) as [Hle _]. exact Hle.
Qed.

Lemma rerank_best_first_witness :
  exists best rest idx,
    fst (rerank (Some (stub_scorer [f0_9; f0_1; f0_8]))
                (Parsed (PyDict (cat_request (top_n_item (Some 2%Z))))) [])
    = (RankBody (best :: rest) idx, 200%Z) /\
    forall sc, In sc [f0_9; f0_1; f0_8] -> SFleb sc best = true.
Proof.
  apply (rerank_best_first
           (cat_request (top_n_item (Some 2%Z))) "cat" cat_documents (Some 2%Z)
           (stub_scorer [f0_9; f0_1; f0_8]) [f0_9; f0_1; f0_8] []).
  - constructor; try reflexivity; discriminate.
  - right. exists 2%Z. split; [reflexivity | lia].
  - reflexivity.
  - reflexivity.
  - repeat constructor.
Defined.

(** X18.  With a single document and top_n omitted, the response holds
    exactly that document's score and the index 0, whatever the score
    (a NaN included). *)
Theorem rerank_single_document d q doc predict sc s :
  valid_request d q [doc] None ->
  predict (pairs_of q [doc]) = Ok [sc] ->
  fst (rerank (Some predict) (Parsed (PyDict d)) s) = (RankBody [sc] [0], 200%Z).
Proof.
  intros Hv Hp.
  rewrite (rerank_valid_response _ _ _ _ _ _ s Hv Hp eq_refl). reflexivity.
Qed.

Lemma rerank_single_document_witness :
  fst (rerank (Some (stub_scorer [S754_nan]))
              (Parsed (PyDict [("query", PyStr "cat");
                               ("documents", PyList [PyStr "a cat sat"])])) [])
  = (RankBody [S754_nan] [0], 200%Z).
Proof.
  apply (rerank_single_document
           [("query", PyStr "cat"); ("documents", PyList [PyStr "a cat sat"])]
           "cat" "a cat sat" (stub_scorer [S754_nan]) S754_nan []).
  - constructor; try reflexivity; discriminate.
  - reflexivity.
Defined.
